(** * Mosa: the reactive facade of [src/Mosa.ts]

    Mosa binds six operations of a host reactivity engine (the
    [mosaConfig] argument of [initializeMosa]) into the facade
    [useRoot], [useProp], [useFormula], [doNow], [doWatch], [onDispose]
    and [exists].  The engine itself is not part of the repository, so
    the facade is embedded over an arbitrary engine state [St]; every
    JavaScript call is a computation that threads this state, may throw,
    and records the calls it makes. *)

From Stdlib Require Import List String Bool Arith ZArith.
Import ListNotations.
Local Open Scope string_scope.
Local Open Scope list_scope.

Set Implicit Arguments.

(** ** JavaScript values *)

(** A value of TypeScript type [T | null | undefined]; [defined] is the
    [NonNullable<T>] part. *)
Inductive Nullable (T : Type) : Type :=
  | undefined : Nullable T
  | null : Nullable T
  | defined (x : T) : Nullable T.
Arguments undefined {T}.
Arguments null {T}.

(** The non-nullish first-order values: booleans, numbers, strings and
    references to heap objects.  The facade never computes with a number,
    so the integers stand for them. *)
Inductive Defined : Type :=
  | VBool (b : bool)
  | VNum (n : Z)
  | VStr (s : string)
  | VObj (ref : nat).

Arguments VNum n%_Z.

Definition Value : Type := Nullable Defined.

(** [x !== undefined] and [x !== null]: strict inequality never coerces,
    so only the value itself compares equal to each sentinel. *)
Definition strict_neq_undefined {T} (x : Nullable T) : bool :=
  match x with undefined => false | _ => true end.

Definition strict_neq_null {T} (x : Nullable T) : bool :=
  match x with null => false | _ => true end.

(** [function exists<T>(x: T): x is NonNullable<T>] (Mosa.ts:209-211). *)
Definition exists_ {T} (x : Nullable T) : bool :=
  strict_neq_undefined x && strict_neq_null x.

(** The type guard [x is NonNullable<T>]: a value that passed [exists]
    is read at its narrowed type. *)
Definition narrow {T} (x : Nullable T) : exists_ x = true -> T :=
  match x with
  | defined v => fun _ => v
  | undefined => fun H => False_rect T (Bool.diff_false_true H)
  | null => fun H => False_rect T (Bool.diff_false_true H)
  end.

(** [cond ? a(x) : b] where [cond] is the guard [exists(x)] and the first
    branch uses [x] narrowed. *)
Definition if_exists {T R} (x : Nullable T) (then_ : T -> R) (else_ : R) : R :=
  (if exists_ x as b return (exists_ x = b -> R)
   then fun H => then_ (narrow x H)
   else fun _ => else_) eq_refl.

(** Optional chaining [o?.f]. *)
Definition opt_chain {A B} (o : Nullable A) (f : A -> Nullable B) : Nullable B :=
  match o with
  | defined a => f a
  | _ => undefined
  end.


(** ** Computations

    A JavaScript call runs against the state [St] of the reactivity
    engine.  It either returns or throws, leaves a new state (also when
    it throws: nothing is rolled back), and emits the calls it made, in
    order. *)

Inductive Error : Type :=
  | TypeError (msg : string)
  | Thrown (v : Value).

Inductive Outcome (A : Type) : Type :=
  | Ok (a : A)
  | Throw (e : Error).
Arguments Throw {A} e.

(** The six methods of [mosaConfig] (Mosa.ts:41-51). *)
Inductive BackendOp : Type :=
  | CreateRoot
  | CreateSignal
  | CreateComputed
  | CreateAutoEffect
  | CreateManualEffect
  | OnDispose.

Definition op_name (op : BackendOp) : string :=
  match op with
  | CreateRoot => "createRoot"
  | CreateSignal => "createSignal"
  | CreateComputed => "createComputed"
  | CreateAutoEffect => "createAutoEffect"
  | CreateManualEffect => "createManualEffect"
  | OnDispose => "onDispose"
  end.

(** The closures a backend hands back: [get]/[set] of a signal and
    [get] of a computed. *)
Inductive Accessor : Type :=
  | SignalGet
  | SignalSet (newValue : Value)
  | ComputedGet.

(** One entry per call expression evaluated. *)
Inductive Event : Type :=
  | EvBackend (op : BackendOp)
  | EvAccessor (a : Accessor)
  | EvInvoke (fid : nat) (args : list Value).

Definition M (St A : Type) : Type := St -> Outcome A * St * list Event.

Section Computation.
Variable St : Type.

Definition ret {A} (a : A) : M St A := fun s => (Ok a, s, []).

Definition throw {A} (e : Error) : M St A := fun s => (Throw e, s, []).

Definition bind {A B} (m : M St A) (k : A -> M St B) : M St B :=
  fun s =>
    match m s with
    | (Ok a, s1, t1) => let '(r, s2, t2) := k a s1 in (r, s2, t1 ++ t2)
    | (Throw e, s1, t1) => (Throw e, s1, t1)
    end.

Definition tell (e : Event) : M St unit := fun s => (Ok tt, s, [e]).

Definition outcome {A} (x : Outcome A * St * list Event) : Outcome A := fst (fst x).
Definition final {A} (x : Outcome A * St * list Event) : St := snd (fst x).
Definition trace {A} (x : Outcome A * St * list Event) : list Event := snd x.

(** A function value: its identity and its body.  Arguments and results
    are first-order values; a [void] function returns [undefined]. *)
Record Fn : Type := { fn_id : nat; fn_body : list Value -> M St Value }.

(** The call [f(args)]. *)
Definition invoke (f : Fn) (args : list Value) : M St Value :=
  bind (tell (EvInvoke (fn_id f) args)) (fun _ => fn_body f args).

(** The optional call [f?.(args)]. *)
Definition opt_call (f : Nullable Fn) (args : list Value) : M St Value :=
  match f with
  | defined g => invoke g args
  | _ => ret undefined
  end.

(** Calling a closure the backend returned. *)
Definition call_accessor {A} (a : Accessor) (m : M St A) : M St A :=
  bind (tell (EvAccessor a)) (fun _ => m).

(** Calling [mosaConfig.op(arg)]: a method that is missing is
    [undefined], and calling it is a TypeError of the runtime. *)
Definition call_backend {A B} (op : BackendOp) (method : option (A -> M St B))
    (arg : A) : M St B :=
  match method with
  | Some f => bind (tell (EvBackend op)) (fun _ => f arg)
  | None => throw (TypeError ("mosaConfig." ++ op_name op ++ " is not a function")%string)
  end.
End Computation.

Arguments ret {St A} a.
Arguments throw {St A} e.
Arguments tell {St} e.
Arguments outcome {St A} x.
Arguments final {St A} x.
Arguments trace {St A} x.

Declare Scope js_scope.
Delimit Scope js_scope with js.
Notation "x <- m ;; k" := (bind m (fun x => k))
  (at level 61, m at next level, right associativity) : js_scope.
Notation "m ;; k" := (bind m (fun _ => k))
  (at level 61, right associativity) : js_scope.
Local Open Scope js_scope.

(** ** The Configuration Contract and the facade's objects *)

(** [{ get(): T; set(newValue: T): void }] *)
Module Signal.
Record t (St : Type) : Type := { get : M St Value; set : Value -> M St unit }.
End Signal.

(** [{ get(): T }] *)
Module Computed.
Record t (St : Type) : Type := { get : M St Value }.
End Computed.

(** [ReadonlyProp<T> = { get value(): Unionize<T> }] *)
Module ReadonlyProp.
Record t (St : Type) : Type := { value : M St Value }.
End ReadonlyProp.

(** [{ on: { get value(): any }[]; do: () => void }] *)
Module ManualEffect.
Record params (St : Type) : Type :=
  { on : list (ReadonlyProp.t St); do : Fn St }.
End ManualEffect.

(** The argument of [initializeMosa].  A method the caller left out is
    [None]. *)
Module MosaConfig.
Record t (St : Type) : Type := {
  createRoot : option (Fn St -> M St Value);
  createSignal : option (Value -> M St (Signal.t St));
  createComputed : option (Fn St -> M St (Computed.t St));
  createAutoEffect : option (Fn St -> M St unit);
  createManualEffect : option (ManualEffect.params St -> M St unit);
  onDispose : option (Fn St -> M St unit)
}.
End MosaConfig.

(** [Prop<GetType, SetType>]: the accessor pair [get value()] and
    [set value(x)]. *)
Module MosaProp.
Record t (St : Type) : Type :=
  { value : M St Value; set_value : Value -> M St unit }.
End MosaProp.

(** The object literal [useFormula] returns. *)
Module Formula.
Record t (St : Type) : Type :=
  { _isSig : bool; value : M St Value; set_value : Value -> M St unit }.
End Formula.

(** [Partial<{ on: ReadonlyProp<any>[] }>] *)
Module Options.
Record t (St : Type) : Type := { on : Nullable (list (ReadonlyProp.t St)) }.
End Options.

(** [MosaApi = ReturnType<typeof initializeMosa>] *)
Module MosaApi.
Record t (St : Type) : Type := {
  useRoot : Fn St -> M St Value;
  useProp : Value -> M St (MosaProp.t St);
  useFormula : Fn St -> Nullable (Fn St) -> M St (Formula.t St);
  doNow : Fn St -> M St Value;
  doWatch : Fn St -> Nullable (Options.t St) -> M St unit;
  onDispose : Fn St -> M St unit;
  exists_ : forall T : Type, Nullable T -> bool
}.
End MosaApi.

(** ** The facade (Mosa.ts:41-207) *)

Section Facade.
Variable St : Type.
Variable mosaConfig : MosaConfig.t St.

(** Mosa.ts:55-57 *)
Definition useRoot (func : Fn St) : M St Value :=
  call_backend CreateRoot (MosaConfig.createRoot mosaConfig) func.

(** Mosa.ts:73-88 *)
Definition useProp (initValue : Value) : M St (MosaProp.t St) :=
  sig <- call_backend CreateSignal (MosaConfig.createSignal mosaConfig) initValue ;;
  ret {| MosaProp.value := call_accessor SignalGet (Signal.get sig);
         MosaProp.set_value := fun newValue =>
           call_accessor (SignalSet newValue) (Signal.set sig newValue) |}.

(** Mosa.ts:112-138 *)
Definition useFormula (compute : Fn St) (set : Nullable (Fn St))
    : M St (Formula.t St) :=
  c <- call_backend CreateComputed (MosaConfig.createComputed mosaConfig) compute ;;
  ret {| Formula._isSig := true;
         Formula.value := call_accessor ComputedGet (Computed.get c);
         Formula.set_value := fun newValue =>
           opt_call set [newValue] ;; ret tt |}.

(** Mosa.ts:146-148 *)
Definition doNow (func : Fn St) : M St Value :=
  invoke func [].

(** Mosa.ts:183-195 *)
Definition doWatch (func : Fn St) (options : Nullable (Options.t St)) : M St unit :=
  if_exists (opt_chain options (@Options.on St))
    (fun on =>
       call_backend CreateManualEffect (MosaConfig.createManualEffect mosaConfig)
         {| ManualEffect.on := on; ManualEffect.do := func |})
    (call_backend CreateAutoEffect (MosaConfig.createAutoEffect mosaConfig) func).

(** Mosa.ts:199-201 *)
Definition onDispose (func : Fn St) : M St unit :=
  call_backend OnDispose (MosaConfig.onDispose mosaConfig) func.

(** Mosa.ts:41-207: the body is the [return] of one object literal. *)
Definition initializeMosa : M St (MosaApi.t St) :=
  ret {| MosaApi.useRoot := useRoot;
         MosaApi.useProp := useProp;
         MosaApi.useFormula := useFormula;
         MosaApi.doNow := doNow;
         MosaApi.doWatch := doWatch;
         MosaApi.onDispose := onDispose;
         MosaApi.exists_ := @exists_ |}.
End Facade.

(** ** Reading the trace *)

(** The result [r] of a callee, seen from a caller that recorded the
    call [e] first. *)
Definition after {St A} (e : Event) (r : Outcome A * St * list Event)
    : Outcome A * St * list Event :=
  (outcome r, final r, e :: trace r).

(** A setter's return value is dropped; what it throws is kept. *)
Definition discard {A} (r : Outcome A) : Outcome unit :=
  match r with
  | Ok _ => Ok tt
  | Throw e => Throw e
  end.

Definition is_invoke (fid : nat) (e : Event) : bool :=
  match e with
  | EvInvoke g _ => Nat.eqb g fid
  | _ => false
  end.

(** How many calls of the function [fid] a trace holds. *)
Definition invocations (fid : nat) (t : list Event) : nat :=
  List.length (filter (is_invoke fid) t).

(** The trace [t] holds one call of [f] with [args]: the call, what the
    body of [f] emitted while it ran, and no call of [f] before or
    after. *)
Definition invoked_once {St} (f : Fn St) (args : list Value) (t : list Event) : Prop :=
  exists pre s post,
    t = pre ++ EvInvoke (fn_id f) args :: trace (fn_body f args s) ++ post
    /\ invocations (fn_id f) pre = 0
    /\ invocations (fn_id f) post = 0.

(** The error a call ended with, if it threw. *)
Definition error_of {St A} (r : Outcome A * St * list Event) : option Error :=
  match outcome r with
  | Ok _ => None
  | Throw e => Some e
  end.

(** The facade call [call] only delegates to the method [op] of the
    configuration, applied to [arg]: where the method is there, the call
    records that one method call, ends in the state and with the trace
    of the method, and throws exactly what the method throws; where it is
    missing, the call throws the runtime's TypeError, untouched. *)
Definition delegates {St A B C} (op : BackendOp) (method : option (A -> M St B))
    (arg : A) (call : M St C) (s : St) : Prop :=
  match method with
  | Some mk =>
      error_of (call s) = error_of (mk arg s)
      /\ final (call s) = final (mk arg s)
      /\ trace (call s) = EvBackend op :: trace (mk arg s)
  | None =>
      call s =
      (Throw (TypeError ("mosaConfig." ++ op_name op ++ " is not a function")%string),
       s, [])
  end.

(** ** What a conforming backend promises

    The facade only forwards; what a read returns or when an effect body
    runs is the backend's part of the Configuration Contract. *)

(** [createSignal]: [get] returns the current value, [set] updates it. *)
Definition SignalContract {St} (mk : Value -> M St (Signal.t St)) : Prop :=
  forall v s sig s1 t,
    mk v s = (Ok sig, s1, t) ->
    outcome (Signal.get sig s1) = Ok v
    /\ forall v2 s2 s3 t2,
         Signal.set sig v2 s2 = (Ok tt, s3, t2) ->
         outcome (Signal.get sig s3) = Ok v2.

(** [createComputed], for the derivation [compute]: [get] returns what
    [compute] evaluates to in the state of the read. *)
Definition ComputedContract {St} (mk : Fn St -> M St (Computed.t St))
    (compute : Fn St) : Prop :=
  forall s c s1 t,
    mk compute s = (Ok c, s1, t) ->
    forall s2, outcome (Computed.get c s2) = outcome (fn_body compute [] s2).

(** [createAutoEffect] and [createManualEffect] are there and run the
    effect body once, immediately. *)
Definition EffectContract {St} (cfg : MosaConfig.t St) : Prop :=
  (exists mk, MosaConfig.createAutoEffect cfg = Some mk
     /\ forall f s, invoked_once f [] (trace (mk f s)))
  /\ (exists mk, MosaConfig.createManualEffect cfg = Some mk
     /\ forall p s, invoked_once (ManualEffect.do p) [] (trace (mk p s))).

(** ** A small engine to run the facade on

    Signals are cells, a computed re-evaluates at every read, an effect
    is recorded and run once when it is registered.  Re-running effects
    when a cell changes is left out: no property below is about it. *)

Record Engine : Type := {
  cells : list (nat * Value);
  autoEffects : list nat;
  manualEffects : list (nat * nat);
  disposers : list nat
}.

Definition emptyEngine : Engine :=
  {| cells := []; autoEffects := []; manualEffects := []; disposers := [] |}.

Definition readCell (id : nat) (e : Engine) : Value :=
  match find (fun kv => Nat.eqb (fst kv) id) (cells e) with
  | Some kv => snd kv
  | None => undefined
  end.

Definition writeCell (id : nat) (v : Value) (e : Engine) : Engine :=
  {| cells := (id, v) :: cells e;
     autoEffects := autoEffects e;
     manualEffects := manualEffects e;
     disposers := disposers e |}.

Definition engineSignal (initValue : Value) : M Engine (Signal.t Engine) :=
  fun e =>
    let id := List.length (cells e) in
    (Ok {| Signal.get := fun e1 => (Ok (readCell id e1), e1, []);
           Signal.set := fun v e1 => (Ok tt, writeCell id v e1, []) |},
     writeCell id initValue e, []).

Definition engineComputed (compute : Fn Engine) : M Engine (Computed.t Engine) :=
  ret {| Computed.get := invoke compute [] |}.

Definition engineAutoEffect (effect : Fn Engine) : M Engine unit :=
  fun e =>
    let e1 := {| cells := cells e;
                 autoEffects := fn_id effect :: autoEffects e;
                 manualEffects := manualEffects e;
                 disposers := disposers e |} in
    (invoke effect [] ;; ret tt) e1.

Definition engineManualEffect (p : ManualEffect.params Engine) : M Engine unit :=
  fun e =>
    let e1 := {| cells := cells e;
                 autoEffects := autoEffects e;
                 manualEffects :=
                   (fn_id (ManualEffect.do p), List.length (ManualEffect.on p))
                   :: manualEffects e;
                 disposers := disposers e |} in
    (invoke (ManualEffect.do p) [] ;; ret tt) e1.

Definition engineOnDispose (func : Fn Engine) : M Engine unit :=
  fun e =>
    (Ok tt,
     {| cells := cells e;
        autoEffects := autoEffects e;
        manualEffects := manualEffects e;
        disposers := fn_id func :: disposers e |}, []).

Definition engineConfig : MosaConfig.t Engine :=
  {| MosaConfig.createRoot := Some (fun func => invoke func []);
     MosaConfig.createSignal := Some engineSignal;
     MosaConfig.createComputed := Some engineComputed;
     MosaConfig.createAutoEffect := Some engineAutoEffect;
     MosaConfig.createManualEffect := Some engineManualEffect;
     MosaConfig.onDispose := Some engineOnDispose |}.

(** A configuration object that supplies nothing. *)
Definition emptyConfig : MosaConfig.t Engine :=
  {| MosaConfig.createRoot := None;
     MosaConfig.createSignal := None;
     MosaConfig.createComputed := None;
     MosaConfig.createAutoEffect := None;
     MosaConfig.createManualEffect := None;
     MosaConfig.onDispose := None |}.

(** [() => 42] *)
Definition fortyTwo : Fn Engine :=
  {| fn_id := 1; fn_body := fun _ => ret (defined (VNum 42)) |}.

(** An effect body that leaves a mark in cell 100. *)
Definition markEffect : Fn Engine :=
  {| fn_id := 2;
     fn_body := fun _ e => (Ok undefined, writeCell 100 (defined (VBool true)) e, []) |}.

(** [(newValue) => (cell7 = newValue)] *)
Definition storeSetter : Fn Engine :=
  {| fn_id := 3;
     fn_body := fun args e =>
       let v := match args with x :: _ => x | [] => undefined end in
       (Ok v, writeCell 7 v e, []) |}.

(** [() => cell7] *)
Definition readSeven : Fn Engine :=
  {| fn_id := 4; fn_body := fun _ e => (Ok (readCell 7 e), e, []) |}.

(** [{ on: [prop] }] for a prop that reads cell 7. *)
Definition watchSeven : Nullable (Options.t Engine) :=
  defined {| Options.on :=
               defined [ {| ReadonlyProp.value := fn_body readSeven [] |} ] |}.

(** [{ on: [] }] *)
Definition watchNothing : Nullable (Options.t Engine) :=
  defined {| Options.on := defined [] |}.

(** ** The Solid adapters (src/Plugins/SolidJs.ts and the two unnamed
    plugin files)

    The adapters translate Solid's functions into the six methods of
    [mosaConfig].  Solid itself is outside the repository: its functions
    are parameters.  [createSignal] returns the tuple [[get, set]];
    [createMemo] and [on] return functions; a thunk [() => signal.value]
    that an adapter builds is the computation of its body.  The calls an
    adapter makes into Solid are not entered in the trace, only what
    Solid's functions emit themselves. *)

(** The argument of [getMosaConfigForSolid] (SolidJs.ts:11-18).  A
    function the caller left out is [None]. *)
Module SolidConfig.
Record t (St : Type) : Type := {
  createRoot : option (Fn St -> M St Value);
  createSignal : option (Value -> M St (M St Value * (Value -> M St unit)));
  createMemo : option (Fn St -> M St (M St Value));
  createEffect : option (Fn St -> M St unit);
  on : option (list (M St Value) * Fn St -> M St (Fn St));
  onCleanup : option (Fn St -> M St unit)
}.
End SolidConfig.

(** The six functions the unnamed plugin files import from [solid-js]:
    an import is always there. *)
Module SolidJs.
Record t (St : Type) : Type := {
  createRoot : Fn St -> M St Value;
  createSignal : Value -> M St (M St Value * (Value -> M St unit));
  createMemo : Fn St -> M St (M St Value);
  createEffect : Fn St -> M St unit;
  on : list (M St Value) * Fn St -> M St (Fn St);
  onCleanup : Fn St -> M St unit
}.
End SolidJs.

(** Calling [solidConfig.name(arg)]: the argument is evaluated first,
    then a missing function is a TypeError of the runtime. *)
Definition call_solid {St A B} (name : string) (method : option (A -> M St B))
    (arg : A) : M St B :=
  match method with
  | Some f => f arg
  | None => throw (TypeError ("solidConfig." ++ name ++ " is not a function")%string)
  end.

(** The call in [const [get, set] = solidConfig.name(arg)]: the runtime
    words the TypeError of a missing function for the destructuring
    around the call. *)
Definition call_solid_destructured {St A B} (name : string)
    (method : option (A -> M St B)) (arg : A) : M St B :=
  match method with
  | Some f => f arg
  | None =>
      throw (TypeError ("solidConfig." ++ name
                        ++ " is not a function or its return value is not iterable")%string)
  end.

Section SolidAdapter.
Variable St : Type.

(** SolidJs.ts:11-39 *)
Definition getMosaConfigForSolid (solidConfig : SolidConfig.t St) : MosaConfig.t St :=
  {| MosaConfig.createRoot := SolidConfig.createRoot solidConfig;
     MosaConfig.createSignal := Some (fun initValue =>
       gs <- call_solid_destructured "createSignal"
               (SolidConfig.createSignal solidConfig) initValue ;;
       ret {| Signal.get := fst gs; Signal.set := snd gs |});
     MosaConfig.createComputed := Some (fun compute =>
       memo <- call_solid "createMemo" (SolidConfig.createMemo solidConfig) compute ;;
       ret {| Computed.get := memo |});
     MosaConfig.createAutoEffect := SolidConfig.createEffect solidConfig;
     MosaConfig.createManualEffect := Some (fun p =>
       tracked <- call_solid "on" (SolidConfig.on solidConfig)
                    (map (fun signal => ReadonlyProp.value signal) (ManualEffect.on p),
                     ManualEffect.do p) ;;
       call_solid "createEffect" (SolidConfig.createEffect solidConfig) tracked);
     MosaConfig.onDispose := SolidConfig.onCleanup solidConfig |}.

(** The object literal passed to [initializeMosa] in the plugin file that
    exports [mosaForSolid] (unnamed/part_000:18-37). *)
Definition mosaForSolid_config (solid : SolidJs.t St) : MosaConfig.t St :=
  {| MosaConfig.createRoot := Some (SolidJs.createRoot solid);
     MosaConfig.createSignal := Some (fun initValue =>
       gs <- SolidJs.createSignal solid initValue ;;
       ret {| Signal.get := fst gs; Signal.set := snd gs |});
     MosaConfig.createComputed := Some (fun compute =>
       memo <- SolidJs.createMemo solid compute ;;
       ret {| Computed.get := memo |});
     MosaConfig.createAutoEffect := Some (SolidJs.createEffect solid);
     MosaConfig.createManualEffect := Some (fun p =>
       tracked <- SolidJs.on solid
                    (map (fun signal => ReadonlyProp.value signal) (ManualEffect.on p),
                     ManualEffect.do p) ;;
       SolidJs.createEffect solid tracked);
     MosaConfig.onDispose := Some (SolidJs.onCleanup solid) |}.

(** [export const mosaForSolid = initializeMosa({...})] *)
Definition mosaForSolid (solid : SolidJs.t St) : M St (MosaApi.t St) :=
  initializeMosa (mosaForSolid_config solid).

(** [export const mosaConfigForSolid = {...}] (unnamed/part_001:12-29):
    four keys, no [createRoot] and no [onDispose]. *)
Definition mosaConfigForSolid (solid : SolidJs.t St) : MosaConfig.t St :=
  {| MosaConfig.createRoot := None;
     MosaConfig.createSignal := Some (fun initValue =>
       gs <- SolidJs.createSignal solid initValue ;;
       ret {| Signal.get := fst gs; Signal.set := snd gs |});
     MosaConfig.createComputed := Some (fun compute =>
       memo <- SolidJs.createMemo solid compute ;;
       ret {| Computed.get := memo |});
     MosaConfig.createAutoEffect := Some (SolidJs.createEffect solid);
     MosaConfig.createManualEffect := Some (fun p =>
       tracked <- SolidJs.on solid
                    (map (fun signal => ReadonlyProp.value signal) (ManualEffect.on p),
                     ManualEffect.do p) ;;
       SolidJs.createEffect solid tracked);
     MosaConfig.onDispose := None |}.

(** The [solid-js] imports, passed as the object [getMosaConfigForSolid]
    expects. *)
Definition importsAsConfig (solid : SolidJs.t St) : SolidConfig.t St :=
  {| SolidConfig.createRoot := Some (SolidJs.createRoot solid);
     SolidConfig.createSignal := Some (SolidJs.createSignal solid);
     SolidConfig.createMemo := Some (SolidJs.createMemo solid);
     SolidConfig.createEffect := Some (SolidJs.createEffect solid);
     SolidConfig.on := Some (SolidJs.on solid);
     SolidConfig.onCleanup := Some (SolidJs.onCleanup solid) |}.

(** What the adapter relies on for a signal: the accessor returns the
    initial value, then what the setter was last given. *)
Definition SolidSignalContract
    (mk : Value -> M St (M St Value * (Value -> M St unit))) : Prop :=
  forall v s get set s1 t,
    mk v s = (Ok (get, set), s1, t) ->
    outcome (get s1) = Ok v
    /\ forall v2 s2 s3 t2,
         set v2 s2 = (Ok tt, s3, t2) -> outcome (get s3) = Ok v2.

(** What the adapter relies on for the memo of [compute]: the accessor
    returns what [compute] evaluates to in the state of the read. *)
Definition SolidMemoContract (mk : Fn St -> M St (M St Value)) (compute : Fn St)
    : Prop :=
  forall s memo s1 t,
    mk compute s = (Ok memo, s1, t) ->
    forall s2, outcome (memo s2) = outcome (fn_body compute [] s2).

End SolidAdapter.

(** ** Caller code the docstrings show *)

Section CallerCode.
Variable St : Type.


(** [() => g(p.value)], a derivation from one prop. *)
Definition derive (id : nat) (g : Value -> Value) (p : MosaProp.t St) : Fn St :=
  {| fn_id := id;
     fn_body := fun _ => v <- MosaProp.value p ;; ret (g v) |}.

(** A prop listed in [on]: the same object, read at type
    [ReadonlyProp]. *)
Definition asReadonly (p : MosaProp.t St) : ReadonlyProp.t St :=
  {| ReadonlyProp.value := MosaProp.value p |}.
End CallerCode.

(** Solid's six functions, played by the small engine.  [on] returns a
    function that reads the dependencies and then runs the effect. *)
Definition engineSolid : SolidJs.t Engine :=
  {| SolidJs.createRoot := fun func => invoke func [];
     SolidJs.createSignal := fun initValue e =>
       let id := List.length (cells e) in
       (Ok (fun e1 => (Ok (readCell id e1), e1, []),
            fun v e1 => (Ok tt, writeCell id v e1, [])),
        writeCell id initValue e, []);
     SolidJs.createMemo := fun compute => ret (invoke compute []);
     SolidJs.createEffect := engineAutoEffect;
     SolidJs.on := fun de =>
       ret {| fn_id := 1000 + fn_id (snd de);
              fn_body := fun _ =>
                fold_right (fun dep rest => dep ;; rest) (invoke (snd de) []) (fst de) |};
     SolidJs.onCleanup := engineOnDispose |}.

(** A Solid configuration object that has [on] but no [createEffect]. *)
Definition solidWithoutCreateEffect : SolidConfig.t Engine :=
  {| SolidConfig.createRoot := None;
     SolidConfig.createSignal := None;
     SolidConfig.createMemo := None;
     SolidConfig.createEffect := None;
     SolidConfig.on := Some (fun de e =>
       (Ok (snd de), writeCell 55 (defined (VNum (Z.of_nat (List.length (fst de))))) e, []));
     SolidConfig.onCleanup := None |}.

(** [(x) => x + 1] on numbers, the identity elsewhere. *)
Definition succValue (v : Value) : Value :=
  match v with
  | defined (VNum n) => defined (VNum (n + 1))
  | _ => v
  end.

(** ** Backends that type-check and do otherwise *)

(** An effect method that only queues the effect: the body runs later,
    not when it is registered. *)
Definition queueAutoEffect (effect : Fn Engine) : M Engine unit :=
  fun e =>
    (Ok tt,
     {| cells := cells e;
        autoEffects := fn_id effect :: autoEffects e;
        manualEffects := manualEffects e;
        disposers := disposers e |}, []).

Definition queueManualEffect (p : ManualEffect.params Engine) : M Engine unit :=
  fun e =>
    (Ok tt,
     {| cells := cells e;
        autoEffects := autoEffects e;
        manualEffects :=
          (fn_id (ManualEffect.do p), List.length (ManualEffect.on p))
          :: manualEffects e;
        disposers := disposers e |}, []).

Definition queueingConfig : MosaConfig.t Engine :=
  {| MosaConfig.createRoot := Some (fun func => invoke func []);
     MosaConfig.createSignal := Some engineSignal;
     MosaConfig.createComputed := Some engineComputed;
     MosaConfig.createAutoEffect := Some queueAutoEffect;
     MosaConfig.createManualEffect := Some queueManualEffect;
     MosaConfig.onDispose := Some engineOnDispose |}.

(** A signal whose setter stores what it makes of its argument, not the
    argument. *)
Definition skewedSignal (initValue : Value) : M Engine (Signal.t Engine) :=
  fun e =>
    let id := List.length (cells e) in
    (Ok {| Signal.get := fun e1 => (Ok (readCell id e1), e1, []);
           Signal.set := fun v e1 => (Ok tt, writeCell id (succValue v) e1, []) |},
     writeCell id initValue e, []).

Definition skewedConfig : MosaConfig.t Engine :=
  {| MosaConfig.createRoot := Some (fun func => invoke func []);
     MosaConfig.createSignal := Some skewedSignal;
     MosaConfig.createComputed := Some engineComputed;
     MosaConfig.createAutoEffect := Some engineAutoEffect;
     MosaConfig.createManualEffect := Some engineManualEffect;
     MosaConfig.onDispose := Some engineOnDispose |}.

(** ** Calls and their traces *)

Section CallLemmas.
Variable St : Type.

Lemma bind_tell A (e : Event) (m : M St A) (s : St) :
  bind (tell e) (fun _ => m) s = after e (m s).
Proof.
  unfold bind, tell, after, outcome, final, trace.
  destruct (m s) as [[r s1] t1]. reflexivity.
Qed.

Lemma invoke_after (f : Fn St) (args : list Value) (s : St) :
  invoke f args s = after (EvInvoke (fn_id f) args) (fn_body f args s).
Proof. unfold invoke. apply bind_tell. Qed.

Lemma call_accessor_after A (a : Accessor) (m : M St A) (s : St) :
  call_accessor a m s = after (EvAccessor a) (m s).
Proof. unfold call_accessor. apply bind_tell. Qed.

Lemma call_backend_present A B (op : BackendOp) (f : A -> M St B) (arg : A) (s : St) :
  call_backend op (Some f) arg s = after (EvBackend op) (f arg s).
Proof. unfold call_backend. apply bind_tell. Qed.

Lemma call_backend_missing A B (op : BackendOp) (arg : A) (s : St) :
  call_backend op (@None (A -> M St B)) arg s =
  (Throw (TypeError ("mosaConfig." ++ op_name op ++ " is not a function")%string), s, []).
Proof. reflexivity. Qed.

Lemma bind_ok A B (m : M St A) (k : A -> M St B) s a s1 t1 :
  m s = (Ok a, s1, t1) ->
  bind m k s = (outcome (k a s1), final (k a s1), t1 ++ trace (k a s1)).
Proof.
  intros H. unfold bind. rewrite H.
  destruct (k a s1) as [[r s2] t2]. reflexivity.
Qed.

Lemma bind_throw A B (m : M St A) (k : A -> M St B) s e s1 t1 :
  m s = (Throw e, s1, t1) -> bind m k s = (Throw e, s1, t1).
Proof. intros H. unfold bind. rewrite H. reflexivity. Qed.

(** A [bind] that returned went through its first half. *)
Lemma bind_inv_ok A B (m : M St A) (k : A -> M St B) s b s2 t :
  bind m k s = (Ok b, s2, t) ->
  exists a s1 t1 t2,
    m s = (Ok a, s1, t1) /\ k a s1 = (Ok b, s2, t2) /\ t = t1 ++ t2.
Proof.
  unfold bind. destruct (m s) as [[[a | e] s1] t1]; [ | discriminate].
  destruct (k a s1) as [[r s2'] t2] eqn:Hk. intros H.
  injection H as -> -> <-. exists a, s1, t1, t2. auto.
Qed.

(** Dropping the result of [m] before going on changes nothing. *)
Lemma bind_drop_result A B (m : M St A) (k : M St B) s :
  ((m ;; ret tt) ;; k) s = (m ;; k) s.
Proof.
  unfold bind, ret.
  destruct (m s) as [[[a | e] s1] t1]; [ | reflexivity].
  destruct (k s1) as [[r s2] t2]. rewrite app_nil_r. reflexivity.
Qed.

(** A call the caller records itself and that is no call of [f] keeps
    "called once" as it is. *)
Lemma invoked_once_after (f : Fn St) args (e : Event) (t : list Event) :
  is_invoke (fn_id f) e = false ->
  invoked_once f args t -> invoked_once f args (e :: t).
Proof.
  intros He (pre & s & post & -> & Hpre & Hpost).
  exists (e :: pre), s, post. repeat split; auto.
  unfold invocations in *. cbn. rewrite He. exact Hpre.
Qed.

Lemma invoked_once_invoke (f : Fn St) args s :
  invoked_once f args (trace (invoke f args s)).
Proof.
  rewrite invoke_after. exists [], s, []. cbn.
  rewrite app_nil_r. auto.
Qed.
End CallLemmas.

(** ** [exists] *)

Lemma exists_false_iff T (x : Nullable T) :
  exists_ x = false <-> x = undefined \/ x = null.
Proof.
  destruct x; cbn; split; intros H; auto; try discriminate.
  destruct H; discriminate.
Qed.

Lemma exists_true_iff T (x : Nullable T) :
  exists_ x = true <-> exists v, x = defined v.
Proof.
  destruct x; cbn; split; intros H; try discriminate; eauto;
    destruct H as [v H]; discriminate.
Qed.

Lemma if_exists_match T R (x : Nullable T) (then_ : T -> R) (else_ : R) :
  if_exists x then_ else_ =
  match x with
  | defined v => then_ v
  | _ => else_
  end.
Proof. destruct x; reflexivity. Qed.

(** C7. [exists] is a pure, total predicate over any input: it answers
    [false] exactly on [null] and [undefined] and [true] on every other
    value, the falsy [0], [""] and [false] included. *)
Theorem exists_total_predicate :
  (forall (T : Type) (x : Nullable T),
      (exists_ x = false <-> x = undefined \/ x = null)
      /\ (exists_ x = true <-> exists v, x = defined v))
  /\ exists_ (@null Defined) = false
  /\ exists_ (@undefined Defined) = false
  /\ exists_ (defined (VNum 0)) = true
  /\ exists_ (defined (VStr "")) = true
  /\ exists_ (defined (VBool false)) = true.
Proof.
  split; [ | repeat split].
  intros T x. split; [apply exists_false_iff | apply exists_true_iff].
Qed.

(** ** [doNow] *)

(** C9. [doNow(f)] is the one call [f()]: it returns or throws what [f]
    does, leaves the state [f] left, and records the call of [f] and
    nothing else of its own, so no backend method is called;
    [doNow(() => 42)] is [42]. *)
Theorem doNow_calls_once St (func : Fn St) (s : St) :
  doNow func s = after (EvInvoke (fn_id func) []) (fn_body func [] s)
  /\ invoked_once func [] (trace (doNow func s))
  /\ forall k : nat,
       doNow {| fn_id := k; fn_body := fun _ => ret (defined (VNum 42)) |} s
       = (Ok (defined (VNum 42)), s, [EvInvoke k []]).
Proof.
  unfold doNow. split; [apply invoke_after | split].
  - apply invoked_once_invoke.
  - intros k. rewrite invoke_after. reflexivity.
Qed.

(** ** [useFormula] *)

Section UseFormula.
Variable St : Type.
Variable cfg : MosaConfig.t St.

(** A [useFormula] that returned got its computed from the backend and
    built the object literal of Mosa.ts:128-137 around it. *)
Lemma useFormula_inv compute setter s f s1 t :
  useFormula cfg compute setter s = (Ok f, s1, t) ->
  exists mk c t1,
    MosaConfig.createComputed cfg = Some mk
    /\ mk compute s = (Ok c, s1, t1)
    /\ t = EvBackend CreateComputed :: t1
    /\ f = {| Formula._isSig := true;
              Formula.value := call_accessor ComputedGet (Computed.get c);
              Formula.set_value := fun newValue =>
                opt_call setter [newValue] ;; ret tt |}.
Proof.
  unfold useFormula. intros H.
  apply bind_inv_ok in H as (c & s' & t1 & t2 & Hc & Hret & ->).
  unfold ret in Hret. injection Hret as <- <- <-.
  destruct (MosaConfig.createComputed cfg) as [mk | ]; [ | discriminate].
  rewrite call_backend_present in Hc.
  destruct (mk compute s) as [[r s2] t3] eqn:Hmk.
  unfold after in Hc. cbn in Hc. injection Hc as -> -> <-.
  exists mk, c, t3. rewrite app_nil_r. auto.
Qed.
End UseFormula.

(** C10. Whatever [compute] and optional setter it was built from, the
    object [useFormula] returns has the field [_isSig], and it is
    [true]. *)
Theorem useFormula_isSig St (cfg : MosaConfig.t St) compute setter s f s1 t :
  useFormula cfg compute setter s = (Ok f, s1, t) ->
  Formula._isSig f = true.
Proof.
  intros H. apply useFormula_inv in H as (mk & c & t1 & _ & _ & _ & ->).
  reflexivity.
Qed.

Lemma useFormula_isSig_witness :
  exists f s1 t,
    useFormula engineConfig readSeven (defined storeSetter) emptyEngine = (Ok f, s1, t)
    /\ Formula._isSig f = true.
Proof.
  eexists _, _, _. split; [reflexivity | ].
  apply (@useFormula_isSig Engine engineConfig readSeven (defined storeSetter)
           emptyEngine _ _ _ eq_refl).
Defined.

(** C3. On a formula built without a setter, [f.value = x] returns
    normally, leaves the state as it was and records no call at all (so
    no backend method runs); reading [f.value] after the write is
    reading it without the write. *)
Theorem formula_write_without_setter St (cfg : MosaConfig.t St)
    compute s0 f s1 t0 :
  useFormula cfg compute undefined s0 = (Ok f, s1, t0) ->
  forall x s,
    Formula.set_value f x s = (Ok tt, s, [])
    /\ (Formula.set_value f x ;; Formula.value f) s = Formula.value f s.
Proof.
  intros H x s.
  apply useFormula_inv in H as (mk & c & t1 & _ & _ & _ & ->).
  cbn [Formula.set_value Formula.value].
  assert (Hw : (opt_call (@undefined (Fn St)) [x] ;; ret tt) s = (Ok tt, s, []))
    by reflexivity.
  split; [exact Hw | ].
  erewrite bind_ok by exact Hw. cbn [app].
  destruct (call_accessor ComputedGet (Computed.get c) s) as [[r s2] t2].
  reflexivity.
Qed.

Lemma formula_write_without_setter_witness :
  exists f s1 t0,
    useFormula engineConfig readSeven undefined emptyEngine = (Ok f, s1, t0)
    /\ Formula.set_value f (defined (VNum 5)) s1 = (Ok tt, s1, [])
    /\ (Formula.set_value f (defined (VNum 5)) ;; Formula.value f) s1
       = Formula.value f s1.
Proof.
  eexists _, _, _. split; [reflexivity | ].
  apply (@formula_write_without_setter Engine engineConfig readSeven
           emptyEngine _ _ _ eq_refl).
Defined.

(** C4. On a formula built with the setter [set], [f.value = x] is the
    one call [set(x)]: it throws exactly when [set] does, leaves the
    state [set] left, and its trace is that call followed by what the
    body of [set] emitted, so the write itself calls neither the
    computed's [get] nor a backend method.  The read path is untouched:
    reading [f.value] after the write is reading it after [set(x)]. *)
Theorem formula_write_calls_setter St (cfg : MosaConfig.t St)
    compute set s0 f s1 t0 :
  useFormula cfg compute (defined set) s0 = (Ok f, s1, t0) ->
  forall x s,
    Formula.set_value f x s
    = (discard (outcome (fn_body set [x] s)),
       final (fn_body set [x] s),
       EvInvoke (fn_id set) [x] :: trace (fn_body set [x] s))
    /\ invoked_once set [x] (trace (Formula.set_value f x s))
    /\ (Formula.set_value f x ;; Formula.value f) s
       = (invoke set [x] ;; Formula.value f) s.
Proof.
  intros H x s.
  apply useFormula_inv in H as (mk & c & t1 & _ & _ & _ & ->).
  cbn [Formula.set_value].
  assert (Hw : (opt_call (defined set) [x] ;; ret tt) s
               = (discard (outcome (fn_body set [x] s)),
                  final (fn_body set [x] s),
                  EvInvoke (fn_id set) [x] :: trace (fn_body set [x] s))).
  { unfold bind at 1. cbn [opt_call]. rewrite invoke_after.
    unfold after, outcome, final, trace, ret.
    destruct (fn_body set [x] s) as [[[v | e] s2] t2]; cbn;
      rewrite ?app_nil_r; reflexivity. }
  split; [exact Hw | split].
  - rewrite Hw. exists [], s, []. cbn. rewrite app_nil_r. auto.
  - apply bind_drop_result.
Qed.

Lemma formula_write_calls_setter_witness :
  exists f s1 t0,
    useFormula engineConfig readSeven (defined storeSetter) emptyEngine
    = (Ok f, s1, t0)
    /\ Formula.set_value f (defined (VNum 5)) s1
       = (Ok tt, writeCell 7 (defined (VNum 5)) s1,
          [EvInvoke 3 [defined (VNum 5)]]).
Proof.
  eexists _, _, _. split; [reflexivity | ].
  apply (proj1 (@formula_write_calls_setter Engine engineConfig readSeven
                  storeSetter emptyEngine _ _ _ eq_refl (defined (VNum 5)) _)).
Defined.

(** C6. Reading [f.value] is the one call of the [get] the backend's
    [createComputed] returned for [compute]: same result, same state,
    nothing else called.  With a backend whose computed returns what
    [compute] evaluates to at the time of the read, [f.value] is that
    evaluation. *)
Theorem formula_read_is_computed_get St (cfg : MosaConfig.t St) mk
    compute setter s0 f s1 t0 :
  MosaConfig.createComputed cfg = Some mk ->
  useFormula cfg compute setter s0 = (Ok f, s1, t0) ->
  exists c t1,
    mk compute s0 = (Ok c, s1, t1)
    /\ (forall s, Formula.value f s = after (EvAccessor ComputedGet) (Computed.get c s))
    /\ (ComputedContract mk compute ->
        forall s, outcome (Formula.value f s) = outcome (fn_body compute [] s)).
Proof.
  intros Hmk H.
  apply useFormula_inv in H as (mk' & c & t1 & Hmk' & Hc & _ & ->).
  rewrite Hmk in Hmk'. injection Hmk' as <-.
  exists c, t1. cbn [Formula.value]. split; [exact Hc | split].
  - intros s. apply call_accessor_after.
  - intros HC s. rewrite call_accessor_after. unfold after, outcome at 1. cbn [fst].
    exact (HC _ _ _ _ Hc s).
Qed.

Lemma engineComputed_conforms (compute : Fn Engine) :
  ComputedContract engineComputed compute.
Proof.
  intros s c s1 t H s2. unfold engineComputed, ret in H.
  injection H as <- _ _. cbn [Computed.get].
  rewrite invoke_after. reflexivity.
Qed.

Lemma formula_read_is_computed_get_witness :
  exists f s1 t0,
    useFormula engineConfig readSeven undefined emptyEngine = (Ok f, s1, t0)
    /\ outcome (Formula.value f (writeCell 7 (defined (VNum 9)) s1))
       = Ok (defined (VNum 9)).
Proof.
  eexists _, _, _. split; [reflexivity | ].
  destruct (@formula_read_is_computed_get Engine engineConfig engineComputed
              readSeven undefined emptyEngine _ _ _ eq_refl eq_refl)
    as (c & t1 & _ & _ & Hread).
  rewrite (Hread (@engineComputed_conforms readSeven)). reflexivity.
Defined.

(** ** [useProp] *)

Section UseProp.
Variable St : Type.
Variable cfg : MosaConfig.t St.

(** A [useProp] that returned got its signal from the backend and
    built the accessor pair of Mosa.ts:78-87 around it. *)
Lemma useProp_inv initValue s p s1 t :
  useProp cfg initValue s = (Ok p, s1, t) ->
  exists mk sig t1,
    MosaConfig.createSignal cfg = Some mk
    /\ mk initValue s = (Ok sig, s1, t1)
    /\ t = EvBackend CreateSignal :: t1
    /\ p = {| MosaProp.value := call_accessor SignalGet (Signal.get sig);
              MosaProp.set_value := fun newValue =>
                call_accessor (SignalSet newValue) (Signal.set sig newValue) |}.
Proof.
  unfold useProp. intros H.
  apply bind_inv_ok in H as (sig & s' & t1 & t2 & Hc & Hret & ->).
  unfold ret in Hret. injection Hret as <- <- <-.
  destruct (MosaConfig.createSignal cfg) as [mk | ]; [ | discriminate].
  rewrite call_backend_present in Hc.
  destruct (mk initValue s) as [[r s2] t3] eqn:Hmk.
  unfold after in Hc. cbn in Hc. injection Hc as -> -> <-.
  exists mk, sig, t3. rewrite app_nil_r. auto.
Qed.
End UseProp.

(** C5, as stated, fails: what a read returns is the backend's doing.
    On a backend whose setter stores what it makes of its argument,
    [p.value = 4] is followed by a read of [5]. *)
Lemma useProp_skewed_backend :
  match useProp skewedConfig (defined (VNum 0)) emptyEngine with
  | (Ok p, s1, _) =>
      outcome (MosaProp.value p
                 (final (MosaProp.set_value p (defined (VNum 4)) s1)))
      = Ok (defined (VNum 5))
      /\ outcome (MosaProp.value p
                    (final (MosaProp.set_value p (defined (VNum 4)) s1)))
         <> Ok (defined (VNum 4))
  | _ => False
  end.
Proof. cbn. split; [reflexivity | discriminate]. Qed.

(** C5, amended. On every backend the accessors of a prop forward to
    the signal the backend returned: a read is the one call [get()], the
    write [p.value = v2] is the one call [set(v2)] with [v2] as given.
    On a backend whose signal returns the initial value and then what
    [set] was last given, a read right after construction returns the
    initial value and a read after a write returns what was written. *)
Theorem useProp_read_write St (cfg : MosaConfig.t St) v s p s1 t :
  useProp cfg v s = (Ok p, s1, t) ->
  exists mk sig t1,
    MosaConfig.createSignal cfg = Some mk
    /\ mk v s = (Ok sig, s1, t1)
    /\ (forall s', MosaProp.value p s'
                   = after (EvAccessor SignalGet) (Signal.get sig s'))
    /\ (forall v2 s', MosaProp.set_value p v2 s'
                      = after (EvAccessor (SignalSet v2)) (Signal.set sig v2 s'))
    /\ (SignalContract mk ->
        outcome (MosaProp.value p s1) = Ok v
        /\ forall v2 s2 s3 t2,
             MosaProp.set_value p v2 s2 = (Ok tt, s3, t2) ->
             outcome (MosaProp.value p s3) = Ok v2).
Proof.
  intros H.
  apply useProp_inv in H as (mk & sig & t1 & Hmk & Hsig & _ & ->).
  exists mk, sig, t1. cbn [MosaProp.value MosaProp.set_value].
  split; [exact Hmk | split; [exact Hsig | ]].
  split; [intros; apply call_accessor_after | ].
  split; [intros; apply call_accessor_after | ].
  intros HC. destruct (HC _ _ _ _ _ Hsig) as [Hinit Hset]. split.
  - rewrite call_accessor_after. exact Hinit.
  - intros v2 s2 s3 t2 Hw. rewrite call_accessor_after in Hw |- *.
    destruct (Signal.set sig v2 s2) as [[r s3'] t3] eqn:Hs.
    unfold after in Hw. cbn in Hw. injection Hw as -> -> _.
    exact (Hset _ _ _ _ Hs).
Qed.

Lemma readCell_writeCell id v e : readCell id (writeCell id v e) = v.
Proof. unfold readCell, writeCell. cbn. rewrite Nat.eqb_refl. reflexivity. Qed.

Lemma engineSignal_conforms : SignalContract engineSignal.
Proof.
  intros v s sig s1 t H. unfold engineSignal in H.
  injection H as <- <- _. cbn [Signal.get Signal.set]. split.
  - unfold outcome. cbn [fst]. f_equal. apply readCell_writeCell.
  - intros v2 s2 s3 t2 Hw. injection Hw as <- _.
    unfold outcome. cbn [fst]. f_equal. apply readCell_writeCell.
Qed.

Lemma useProp_read_write_witness :
  exists p s1 t,
    useProp engineConfig (defined (VNum 0)) emptyEngine = (Ok p, s1, t)
    /\ outcome (MosaProp.value p s1) = Ok (defined (VNum 0))
    /\ outcome (MosaProp.value p
                  (final (MosaProp.set_value p (defined (VStr "five")) s1)))
       = Ok (defined (VStr "five")).
Proof.
  eexists _, _, _. split; [reflexivity | ].
  destruct (@useProp_read_write Engine engineConfig
              (defined (VNum 0)) emptyEngine _ _ _ eq_refl)
    as (mk & sig & t1 & Hmk & _ & _ & _ & Hreads).
  cbn in Hmk. injection Hmk as <-.
  destruct (Hreads engineSignal_conforms) as [Hinit Hwrite].
  split; [exact Hinit | ].
  eapply Hwrite. reflexivity.
Defined.

(** ** [doWatch] *)

Section DoWatch.
Variable St : Type.
Variable cfg : MosaConfig.t St.

(** The one branch of the facade: on the value of [options?.on]. *)
Lemma doWatch_dispatch func options s :
  doWatch cfg func options s =
  match opt_chain options (@Options.on St) with
  | defined deps =>
      call_backend CreateManualEffect (MosaConfig.createManualEffect cfg)
        {| ManualEffect.on := deps; ManualEffect.do := func |} s
  | _ => call_backend CreateAutoEffect (MosaConfig.createAutoEffect cfg) func s
  end.
Proof.
  unfold doWatch. rewrite if_exists_match.
  destruct (opt_chain options (@Options.on St)); reflexivity.
Qed.

Lemma trace_bind_ret_tt A (m : M St A) s :
  trace ((m ;; ret tt) s) = trace (m s).
Proof.
  unfold bind, ret, trace.
  destruct (m s) as [[[a | e] s1] t1]; cbn; rewrite ?app_nil_r; reflexivity.
Qed.
End DoWatch.

(** C1, as stated, fails: the facade never calls [fn], so on a backend
    that only queues the effect [fn] has not run when [doWatch] returns,
    in neither mode. *)
Lemma doWatch_queueing_backend :
  ~ invoked_once markEffect []
      (trace (doWatch queueingConfig markEffect undefined emptyEngine))
  /\ ~ invoked_once markEffect []
        (trace (doWatch queueingConfig markEffect watchSeven emptyEngine))
  /\ doWatch queueingConfig markEffect undefined emptyEngine
     = (Ok tt,
        {| cells := []; autoEffects := [2]; manualEffects := []; disposers := [] |},
        [EvBackend CreateAutoEffect]).
Proof.
  split; [ | split; [ | reflexivity]];
    intros (pre & s & post & H & _); cbn in H;
    (destruct pre as [ | e pre]; cbn in H;
     [discriminate | injection H as _ H; destruct pre; discriminate]).
Qed.

(** C1, amended. [doWatch(fn, options)] is one call of a backend
    method: of [createManualEffect] with [{on: options.on, do: fn}] when
    [options?.on] is neither [null] nor [undefined], of
    [createAutoEffect] with [fn] otherwise.  The facade itself calls no
    function: every call in the trace of [doWatch] was made by that
    backend method.  On a backend whose two effect methods run the body
    once when they register it, [fn] is called once during [doWatch], in
    either mode. *)
Theorem doWatch_registers_effect St (cfg : MosaConfig.t St) func options :
  (forall s,
      doWatch cfg func options s =
      match opt_chain options (@Options.on St) with
      | defined deps =>
          call_backend CreateManualEffect (MosaConfig.createManualEffect cfg)
            {| ManualEffect.on := deps; ManualEffect.do := func |} s
      | _ => call_backend CreateAutoEffect (MosaConfig.createAutoEffect cfg) func s
      end)
  /\ (forall s fid,
        invocations fid (trace (doWatch cfg func options s)) =
        match opt_chain options (@Options.on St) with
        | defined deps =>
            match MosaConfig.createManualEffect cfg with
            | Some mk =>
                invocations fid
                  (trace (mk {| ManualEffect.on := deps; ManualEffect.do := func |} s))
            | None => 0
            end
        | _ =>
            match MosaConfig.createAutoEffect cfg with
            | Some mk => invocations fid (trace (mk func s))
            | None => 0
            end
        end)
  /\ (EffectContract cfg ->
      forall s, invoked_once func [] (trace (doWatch cfg func options s))).
Proof.
  split; [intros s; apply doWatch_dispatch | split].
  - intros s fid. rewrite doWatch_dispatch.
    destruct (opt_chain options (@Options.on St)) as [ | | deps];
      [destruct (MosaConfig.createAutoEffect cfg) as [mk | ]
      | destruct (MosaConfig.createAutoEffect cfg) as [mk | ]
      | destruct (MosaConfig.createManualEffect cfg) as [mk | ]];
      rewrite ?call_backend_present; reflexivity.
  - intros [(mkA & HA & HonceA) (mkM & HM & HonceM)] s.
    rewrite doWatch_dispatch.
    destruct (opt_chain options (@Options.on St)) as [ | | deps].
    + rewrite HA, call_backend_present.
      apply invoked_once_after; [reflexivity | apply HonceA].
    + rewrite HA, call_backend_present.
      apply invoked_once_after; [reflexivity | apply HonceA].
    + rewrite HM, call_backend_present.
      apply invoked_once_after; [reflexivity | ].
      apply (HonceM {| ManualEffect.on := deps; ManualEffect.do := func |}).
Qed.

Lemma engineConfig_effects : EffectContract engineConfig.
Proof.
  split.
  - exists engineAutoEffect. split; [reflexivity | ]. intros f s.
    unfold engineAutoEffect. rewrite trace_bind_ret_tt.
    apply invoked_once_invoke.
  - exists engineManualEffect. split; [reflexivity | ]. intros p s.
    unfold engineManualEffect. rewrite trace_bind_ret_tt.
    apply invoked_once_invoke.
Qed.

Lemma doWatch_registers_effect_witness :
  invoked_once markEffect [] (trace (doWatch engineConfig markEffect watchSeven emptyEngine))
  /\ invoked_once markEffect [] (trace (doWatch engineConfig markEffect undefined emptyEngine))
  /\ manualEffects (final (doWatch engineConfig markEffect watchSeven emptyEngine))
     = [(2, 1)]
  /\ autoEffects (final (doWatch engineConfig markEffect undefined emptyEngine))
     = [2].
Proof.
  split; [ | split; [ | split; reflexivity]].
  - apply (proj2 (proj2 (doWatch_registers_effect engineConfig markEffect watchSeven))
             engineConfig_effects).
  - apply (proj2 (proj2 (doWatch_registers_effect engineConfig markEffect undefined))
             engineConfig_effects).
Defined.

(** C2, as stated, fails: with [{on: []}] the facade calls
    [createManualEffect], with the empty list, and never
    [createAutoEffect]. *)
Lemma doWatch_empty_on_is_manual :
  doWatch engineConfig markEffect watchNothing emptyEngine
  <> call_backend CreateAutoEffect (MosaConfig.createAutoEffect engineConfig)
       markEffect emptyEngine
  /\ trace (doWatch engineConfig markEffect watchNothing emptyEngine)
     = [EvBackend CreateManualEffect; EvInvoke 2 []]
  /\ manualEffects (final (doWatch engineConfig markEffect watchNothing emptyEngine))
     = [(2, 0)]
  /\ autoEffects (final (doWatch engineConfig markEffect watchNothing emptyEngine))
     = [].
Proof.
  split; [ | repeat split].
  intros H. apply (f_equal trace) in H. cbn in H. discriminate.
Qed.

(** C2, amended. [doWatch] selects manual tracking exactly when
    [options?.on] is neither [null] nor [undefined], whatever the length
    of the list: with [{on: []}] it calls [createManualEffect] with the
    empty list; with [on] absent, [undefined] or [null] it calls
    [createAutoEffect]. *)
Theorem doWatch_manual_iff_on_exists St (cfg : MosaConfig.t St) func options :
  (forall deps,
      opt_chain options (@Options.on St) = defined deps ->
      forall s,
        doWatch cfg func options s
        = call_backend CreateManualEffect (MosaConfig.createManualEffect cfg)
            {| ManualEffect.on := deps; ManualEffect.do := func |} s)
  /\ (exists_ (opt_chain options (@Options.on St)) = false ->
      forall s,
        doWatch cfg func options s
        = call_backend CreateAutoEffect (MosaConfig.createAutoEffect cfg) func s)
  /\ (forall s,
        doWatch cfg func (defined {| Options.on := defined [] |}) s
        = call_backend CreateManualEffect (MosaConfig.createManualEffect cfg)
            {| ManualEffect.on := []; ManualEffect.do := func |} s).
Proof.
  split; [ | split].
  - intros deps Hon s. rewrite doWatch_dispatch, Hon. reflexivity.
  - intros Hon s. rewrite doWatch_dispatch.
    apply exists_false_iff in Hon as [-> | ->]; reflexivity.
  - intros s. rewrite doWatch_dispatch. reflexivity.
Qed.

Lemma doWatch_manual_iff_on_exists_witness :
  doWatch engineConfig markEffect watchSeven emptyEngine
  = after (EvBackend CreateManualEffect)
      (engineManualEffect
         {| ManualEffect.on := [ {| ReadonlyProp.value := fn_body readSeven [] |} ];
            ManualEffect.do := markEffect |} emptyEngine)
  /\ doWatch engineConfig markEffect (defined {| Options.on := null |}) emptyEngine
     = after (EvBackend CreateAutoEffect) (engineAutoEffect markEffect emptyEngine).
Proof.
  split.
  - rewrite (proj1 (doWatch_manual_iff_on_exists engineConfig markEffect watchSeven)
               _ eq_refl).
    apply call_backend_present.
  - rewrite (proj1 (proj2 (doWatch_manual_iff_on_exists engineConfig markEffect
                             (defined {| Options.on := null |}))) eq_refl).
    apply call_backend_present.
Defined.

(** ** [initializeMosa] *)

Section Initialize.
Variable St : Type.
Variable cfg : MosaConfig.t St.

Lemma call_backend_delegates A B (op : BackendOp) (method : option (A -> M St B))
    (arg : A) (s : St) :
  delegates op method arg (call_backend op method arg) s.
Proof.
  destruct method as [mk | ]; cbn [delegates].
  - rewrite call_backend_present. repeat split.
  - reflexivity.
Qed.

(** Wrapping the result of a method in an object literal adds no call
    and no failure. *)
Lemma wrapped_delegates A B C (op : BackendOp) (method : option (A -> M St B))
    (arg : A) (wrap : B -> C) (s : St) :
  delegates op method arg
    (x <- call_backend op method arg ;; ret (wrap x)) s.
Proof.
  destruct method as [mk | ]; cbn [delegates].
  - pose proof (call_backend_present op mk arg s) as Hc.
    destruct (mk arg s) as [[[b | e] s1] t1]; unfold after in Hc; cbn in Hc.
    + erewrite bind_ok by exact Hc. cbn. rewrite app_nil_r. repeat split.
    + erewrite bind_throw by exact Hc. repeat split.
  - reflexivity.
Qed.
End Initialize.

(** C8. [initializeMosa] returns the facade for every configuration
    object, calling none of its methods and leaving the state alone.
    Each facade operation then depends on its own method only:
    [useRoot] on [createRoot], [useProp] on [createSignal], [useFormula]
    on [createComputed], [doWatch] on [createManualEffect] or
    [createAutoEffect] according to [options?.on], [onDispose] on
    [onDispose].  Where that method is there the operation fails exactly
    when the method does, with the method's error; where it is missing
    the operation throws the TypeError of calling it, at the call and not
    before.  [doNow] and [exists] use no method of the configuration. *)
Theorem initializeMosa_defers_failure St (cfg : MosaConfig.t St) (s : St) :
  exists api,
    initializeMosa cfg s = (Ok api, s, [])
    /\ (forall func s1,
          delegates CreateRoot (MosaConfig.createRoot cfg) func
            (MosaApi.useRoot api func) s1)
    /\ (forall initValue s1,
          delegates CreateSignal (MosaConfig.createSignal cfg) initValue
            (MosaApi.useProp api initValue) s1)
    /\ (forall compute set s1,
          delegates CreateComputed (MosaConfig.createComputed cfg) compute
            (MosaApi.useFormula api compute set) s1)
    /\ (forall func options s1,
          match opt_chain options (@Options.on St) with
          | defined deps =>
              delegates CreateManualEffect (MosaConfig.createManualEffect cfg)
                {| ManualEffect.on := deps; ManualEffect.do := func |}
                (MosaApi.doWatch api func options) s1
          | _ =>
              delegates CreateAutoEffect (MosaConfig.createAutoEffect cfg) func
                (MosaApi.doWatch api func options) s1
          end)
    /\ (forall func s1,
          delegates OnDispose (MosaConfig.onDispose cfg) func
            (MosaApi.onDispose api func) s1)
    /\ (forall func s1,
          MosaApi.doNow api func s1
          = after (EvInvoke (fn_id func) []) (fn_body func [] s1))
    /\ (forall (T : Type) (x : Nullable T), MosaApi.exists_ api x = exists_ x).
Proof.
  eexists. split; [reflexivity | ].
  cbn [MosaApi.useRoot MosaApi.useProp MosaApi.useFormula MosaApi.doNow
       MosaApi.doWatch MosaApi.onDispose MosaApi.exists_].
  repeat split.
  - intros func s1. apply call_backend_delegates.
  - intros initValue s1. unfold useProp. apply wrapped_delegates.
  - intros compute set s1. unfold useFormula. apply wrapped_delegates.
  - intros func options s1.
    pose proof (doWatch_dispatch cfg func options) as Hd.
    destruct (opt_chain options (@Options.on St)) as [ | | deps].
    + destruct (MosaConfig.createAutoEffect cfg) as [mk | ] eqn:Hm;
        cbn [delegates]; rewrite !Hd, ?call_backend_present; repeat split.
    + destruct (MosaConfig.createAutoEffect cfg) as [mk | ] eqn:Hm;
        cbn [delegates]; rewrite !Hd, ?call_backend_present; repeat split.
    + destruct (MosaConfig.createManualEffect cfg) as [mk | ] eqn:Hm;
        cbn [delegates]; rewrite !Hd, ?call_backend_present; repeat split.
  - intros func s1. apply call_backend_delegates.
  - intros func s1. apply invoke_after.
Qed.

(** The facade of a configuration that supplies nothing is built all the
    same; [useProp] then fails at its call, [doNow] works. *)
Example initializeMosa_emptyConfig :
  exists api,
    initializeMosa emptyConfig emptyEngine = (Ok api, emptyEngine, [])
    /\ MosaApi.useProp api (defined (VNum 0)) emptyEngine
       = (Throw (TypeError "mosaConfig.createSignal is not a function"),
          emptyEngine, [])
    /\ MosaApi.doNow api fortyTwo emptyEngine
       = (Ok (defined (VNum 42)), emptyEngine, [EvInvoke 1 []]).
Proof. eexists. repeat split. Qed.

(** ** The facade over the Solid adapter *)

Section OverSolid.
Variable St : Type.
Variable solid : SolidConfig.t St.

(** Wrapping a result adds no failure, no state change and no call. *)
Lemma bind_ret_effects A B (m : M St A) (g : A -> B) s :
  error_of ((x <- m ;; ret (g x)) s) = error_of (m s)
  /\ final ((x <- m ;; ret (g x)) s) = final (m s)
  /\ trace ((x <- m ;; ret (g x)) s) = trace (m s).
Proof.
  unfold bind, ret, error_of, outcome, final, trace.
  destruct (m s) as [[[a | e] s1] t1]; cbn; rewrite ?app_nil_r; auto.
Qed.

Lemma call_solid_destructured_inv_ok A B name (method : option (A -> M St B))
    arg s b s1 t :
  call_solid_destructured name method arg s = (Ok b, s1, t) ->
  exists f, method = Some f /\ f arg s = (Ok b, s1, t).
Proof.
  destruct method as [f | ]; cbn; [eauto | discriminate].
Qed.

Lemma call_solid_inv_ok A B name (method : option (A -> M St B)) arg s b s1 t :
  call_solid name method arg s = (Ok b, s1, t) ->
  exists f, method = Some f /\ f arg s = (Ok b, s1, t).
Proof.
  destruct method as [f | ]; cbn; [eauto | discriminate].
Qed.

(** The signal wrapper of the adapter returned: Solid's [createSignal]
    is there and returned the tuple the wrapper repacked. *)
Lemma adapter_createSignal_inv mk v s sig s1 t :
  MosaConfig.createSignal (getMosaConfigForSolid solid) = Some mk ->
  mk v s = (Ok sig, s1, t) ->
  exists mkS get set,
    SolidConfig.createSignal solid = Some mkS
    /\ mkS v s = (Ok (get, set), s1, t)
    /\ sig = {| Signal.get := get; Signal.set := set |}.
Proof.
  cbn. intros Hmk H. injection Hmk as <-.
  apply bind_inv_ok in H as (gs & s' & t1 & t2 & Hc & Hret & ->).
  unfold ret in Hret. injection Hret as <- <- <-.
  apply call_solid_destructured_inv_ok in Hc as (mkS & HmkS & Hc).
  destruct gs as [get set]. exists mkS, get, set.
  rewrite app_nil_r. auto.
Qed.

Lemma adapter_createComputed_inv mk compute s c s1 t :
  MosaConfig.createComputed (getMosaConfigForSolid solid) = Some mk ->
  mk compute s = (Ok c, s1, t) ->
  exists mkM memo,
    SolidConfig.createMemo solid = Some mkM
    /\ mkM compute s = (Ok memo, s1, t)
    /\ c = {| Computed.get := memo |}.
Proof.
  cbn. intros Hmk H. injection Hmk as <-.
  apply bind_inv_ok in H as (memo & s' & t1 & t2 & Hc & Hret & ->).
  unfold ret in Hret. injection Hret as <- <- <-.
  apply call_solid_inv_ok in Hc as (mkM & HmkM & Hc).
  exists mkM, memo. rewrite app_nil_r. auto.
Qed.

(** Manual registration through the adapter: [on] first, then
    [createEffect] on what [on] returned. *)
Lemma adapter_manual_steps onf func deps s :
  SolidConfig.on solid = Some onf ->
  doWatch (getMosaConfigForSolid solid) func
    (defined {| Options.on := defined deps |}) s =
  match onf (map (fun signal => ReadonlyProp.value signal) deps, func) s with
  | (Ok tracked, s1, t1) =>
      let r := call_solid "createEffect" (SolidConfig.createEffect solid) tracked s1 in
      (outcome r, final r, EvBackend CreateManualEffect :: t1 ++ trace r)
  | (Throw e, s1, t1) => (Throw e, s1, EvBackend CreateManualEffect :: t1)
  end.
Proof.
  intros Hon. rewrite doWatch_dispatch. cbn [opt_chain Options.on].
  cbn [getMosaConfigForSolid MosaConfig.createManualEffect].
  rewrite call_backend_present. cbn [ManualEffect.on ManualEffect.do].
  rewrite Hon. cbn [call_solid]. unfold bind at 1.
  destruct (onf _ s) as [[[tracked | e] s1] t1]; [ | reflexivity].
  destruct (call_solid "createEffect" (SolidConfig.createEffect solid) tracked s1)
    as [[r s2] t2].
  reflexivity.
Qed.
End OverSolid.

(** X1. Through the Solid adapter a prop is Solid's signal: [useProp]
    calls Solid's [createSignal] once with the initial value, a read of
    [p.value] is one call of the accessor of the tuple it returned, and
    [p.value = v2] is one call of its setter with [v2]. *)
Theorem useProp_over_solid St (solid : SolidConfig.t St) v s p s1 t :
  useProp (getMosaConfigForSolid solid) v s = (Ok p, s1, t) ->
  exists mkS get set t1,
    SolidConfig.createSignal solid = Some mkS
    /\ mkS v s = (Ok (get, set), s1, t1)
    /\ t = EvBackend CreateSignal :: t1
    /\ (forall s', MosaProp.value p s' = after (EvAccessor SignalGet) (get s'))
    /\ (forall v2 s', MosaProp.set_value p v2 s'
                      = after (EvAccessor (SignalSet v2)) (set v2 s')).
Proof.
  intros H. apply useProp_inv in H as (mk & sig & t1 & Hmk & Hsig & -> & ->).
  destruct (@adapter_createSignal_inv St solid mk v s sig s1 t1 Hmk Hsig)
    as (mkS & get & set & HmkS & Hrun & ->).
  exists mkS, get, set, t1. cbn [MosaProp.value MosaProp.set_value Signal.get Signal.set].
  repeat split; auto; intros; apply call_accessor_after.
Qed.

Lemma useProp_over_solid_witness :
  exists p s1 t,
    useProp (getMosaConfigForSolid (importsAsConfig engineSolid))
      (defined (VNum 3)) emptyEngine = (Ok p, s1, t)
    /\ t = [EvBackend CreateSignal]
    /\ MosaProp.value p s1 = (Ok (defined (VNum 3)), s1, [EvAccessor SignalGet]).
Proof.
  eexists _, _, _. split; [reflexivity | ].
  destruct (@useProp_over_solid Engine (importsAsConfig engineSolid)
              (defined (VNum 3)) emptyEngine _ _ _ eq_refl)
    as (mkS & get & set & t1 & HmkS & Hrun & Ht & Hget & _).
  cbn in HmkS. injection HmkS as <-. cbn in Hrun.
  injection Hrun as <- _ <-.
  split; [exact Ht | ]. rewrite Hget. reflexivity.
Defined.

(** X2. Through the Solid adapter a formula is Solid's memo:
    [useFormula] calls Solid's [createMemo] once with [compute] itself,
    and a read of [f.value] is one call of the accessor it returned. *)
Theorem useFormula_over_solid St (solid : SolidConfig.t St) compute setter s f s1 t :
  useFormula (getMosaConfigForSolid solid) compute setter s = (Ok f, s1, t) ->
  exists mkM memo t1,
    SolidConfig.createMemo solid = Some mkM
    /\ mkM compute s = (Ok memo, s1, t1)
    /\ t = EvBackend CreateComputed :: t1
    /\ forall s', Formula.value f s' = after (EvAccessor ComputedGet) (memo s').
Proof.
  intros H. apply useFormula_inv in H as (mk & c & t1 & Hmk & Hc & -> & ->).
  destruct (@adapter_createComputed_inv St solid mk compute s c s1 t1 Hmk Hc)
    as (mkM & memo & HmkM & Hrun & ->).
  exists mkM, memo, t1. cbn [Formula.value Computed.get].
  repeat split; auto. intros. apply call_accessor_after.
Qed.

Lemma useFormula_over_solid_witness :
  exists f s1 t,
    useFormula (getMosaConfigForSolid (importsAsConfig engineSolid))
      readSeven undefined emptyEngine = (Ok f, s1, t)
    /\ t = [EvBackend CreateComputed]
    /\ Formula.value f s1 = (Ok undefined, s1, [EvAccessor ComputedGet; EvInvoke 4 []]).
Proof.
  eexists _, _, _. split; [reflexivity | ].
  destruct (@useFormula_over_solid Engine (importsAsConfig engineSolid)
              readSeven undefined emptyEngine _ _ _ eq_refl)
    as (mkM & memo & t1 & HmkM & Hrun & Ht & Hget).
  cbn in HmkM. injection HmkM as <-. cbn in Hrun.
  injection Hrun as <- <-.
  split; [exact Ht | ]. rewrite Hget. reflexivity.
Defined.

(** X3. The adapter keeps what Solid promises.  If the accessor of
    Solid's signal returns the initial value and then what the setter
    was last given, the adapter's [createSignal] meets the signal part
    of the Configuration Contract; if the accessor of Solid's memo for
    [compute] returns what [compute] evaluates to, the adapter's
    [createComputed] meets the computed part for [compute]. *)
Theorem solid_adapter_keeps_contracts St (solid : SolidConfig.t St) :
  (forall mkS mk,
      SolidConfig.createSignal solid = Some mkS ->
      SolidSignalContract mkS ->
      MosaConfig.createSignal (getMosaConfigForSolid solid) = Some mk ->
      SignalContract mk)
  /\ (forall mkM mk compute,
        SolidConfig.createMemo solid = Some mkM ->
        SolidMemoContract mkM compute ->
        MosaConfig.createComputed (getMosaConfigForSolid solid) = Some mk ->
        ComputedContract mk compute).
Proof.
  split.
  - intros mkS mk HmkS HC Hmk v s sig s1 t Hsig.
    destruct (@adapter_createSignal_inv St solid mk v s sig s1 t Hmk Hsig)
      as (mkS' & get & set & HmkS' & Hrun & ->).
    rewrite HmkS in HmkS'. injection HmkS' as <-.
    exact (HC _ _ _ _ _ _ Hrun).
  - intros mkM mk compute HmkM HC Hmk s c s1 t Hc.
    destruct (@adapter_createComputed_inv St solid mk compute s c s1 t Hmk Hc)
      as (mkM' & memo & HmkM' & Hrun & ->).
    rewrite HmkM in HmkM'. injection HmkM' as <-.
    exact (HC _ _ _ _ Hrun).
Qed.

Lemma engineSolid_signal : SolidSignalContract (SolidJs.createSignal engineSolid).
Proof.
  intros v s get set s1 t H. cbn in H. injection H as <- <- <- _. split.
  - unfold outcome. cbn [fst]. f_equal. apply readCell_writeCell.
  - intros v2 s2 s3 t2 Hw. injection Hw as <- _.
    unfold outcome. cbn [fst]. f_equal. apply readCell_writeCell.
Qed.

Lemma engineSolid_memo compute :
  SolidMemoContract (SolidJs.createMemo engineSolid) compute.
Proof.
  intros s memo s1 t H s2. cbn in H. unfold ret in H.
  injection H as <- _ _. rewrite invoke_after. reflexivity.
Qed.

Lemma solid_adapter_keeps_contracts_witness :
  (exists mk,
      MosaConfig.createSignal (getMosaConfigForSolid (importsAsConfig engineSolid))
      = Some mk /\ SignalContract mk)
  /\ (exists mk,
        MosaConfig.createComputed (getMosaConfigForSolid (importsAsConfig engineSolid))
        = Some mk /\ ComputedContract mk readSeven).
Proof.
  destruct (solid_adapter_keeps_contracts (importsAsConfig engineSolid))
    as [Hsig Hmemo].
  split; eexists; (split; [reflexivity | ]).
  - exact (Hsig _ _ eq_refl engineSolid_signal eq_refl).
  - exact (Hmemo _ _ readSeven eq_refl (@engineSolid_memo readSeven) eq_refl).
Defined.

(** X4. [doWatch(fn, {on: props})] through the Solid adapter calls
    Solid's [on] with one thunk per listed prop, in the order of the list,
    each thunk reading that prop's [value], and with [fn] itself; then
    it calls [createEffect] with the function [on] returned.  What [on]
    throws is thrown on and [createEffect] is not reached. *)
Theorem doWatch_manual_over_solid St (solid : SolidConfig.t St) onf func props s :
  SolidConfig.on solid = Some onf ->
  let thunks := map (fun signal => ReadonlyProp.value signal) props in
  List.length thunks = List.length props
  /\ (forall k prop, nth_error props k = Some prop ->
                     nth_error thunks k = Some (ReadonlyProp.value prop))
  /\ doWatch (getMosaConfigForSolid solid) func
       (defined {| Options.on := defined props |}) s =
     match onf (thunks, func) s with
     | (Ok tracked, s1, t1) =>
         let r := call_solid "createEffect" (SolidConfig.createEffect solid) tracked s1 in
         (outcome r, final r, EvBackend CreateManualEffect :: t1 ++ trace r)
     | (Throw e, s1, t1) => (Throw e, s1, EvBackend CreateManualEffect :: t1)
     end.
Proof.
  intros Hon thunks. split; [apply length_map | split].
  - intros k prop Hk. unfold thunks. rewrite nth_error_map, Hk. reflexivity.
  - apply adapter_manual_steps. exact Hon.
Qed.

Lemma doWatch_manual_over_solid_witness :
  doWatch (getMosaConfigForSolid (importsAsConfig engineSolid)) markEffect
    watchSeven emptyEngine
  = (Ok tt,
     {| cells := [(100, defined (VBool true))];
        autoEffects := [1002];
        manualEffects := [];
        disposers := [] |},
     [EvBackend CreateManualEffect; EvInvoke 1002 []; EvInvoke 2 []]).
Proof.
  unfold watchSeven.
  rewrite (proj2 (proj2 (@doWatch_manual_over_solid Engine
             (importsAsConfig engineSolid) (SolidJs.on engineSolid) markEffect
             _ emptyEngine eq_refl))).
  reflexivity.
Defined.

(** X5. How manual registration through the adapter fails.  Without
    Solid's [on] nothing is called.  With [on] but without
    [createEffect], [on] has already run when the TypeError is thrown:
    its state change stays.  In auto mode a missing [createEffect] fails
    in the facade, before anything ran. *)
Theorem manual_registration_failures St (solid : SolidConfig.t St) func props s :
  (SolidConfig.on solid = None ->
   doWatch (getMosaConfigForSolid solid) func
     (defined {| Options.on := defined props |}) s
   = (Throw (TypeError "solidConfig.on is not a function"), s,
      [EvBackend CreateManualEffect]))
  /\ (forall onf tracked s1 t1,
        SolidConfig.on solid = Some onf ->
        SolidConfig.createEffect solid = None ->
        onf (map (fun signal => ReadonlyProp.value signal) props, func) s
        = (Ok tracked, s1, t1) ->
        doWatch (getMosaConfigForSolid solid) func
          (defined {| Options.on := defined props |}) s
        = (Throw (TypeError "solidConfig.createEffect is not a function"), s1,
           EvBackend CreateManualEffect :: t1))
  /\ (SolidConfig.createEffect solid = None ->
      doWatch (getMosaConfigForSolid solid) func undefined s
      = (Throw (TypeError "mosaConfig.createAutoEffect is not a function"), s, [])).
Proof.
  split; [ | split].
  - intros Hon. rewrite doWatch_dispatch. cbn [opt_chain Options.on].
    cbn [getMosaConfigForSolid MosaConfig.createManualEffect].
    rewrite call_backend_present. rewrite Hon. reflexivity.
  - intros onf tracked s1 t1 Hon Hce Hrun.
    rewrite (adapter_manual_steps solid func props s Hon), Hrun, Hce.
    cbn. rewrite app_nil_r. reflexivity.
  - intros Hce. rewrite doWatch_dispatch. cbn [opt_chain].
    cbn [getMosaConfigForSolid MosaConfig.createAutoEffect].
    rewrite Hce. reflexivity.
Qed.

Lemma manual_registration_failures_witness :
  doWatch (getMosaConfigForSolid solidWithoutCreateEffect) markEffect
    watchSeven emptyEngine
  = (Throw (TypeError "solidConfig.createEffect is not a function"),
     writeCell 55 (defined (VNum 1)) emptyEngine,
     [EvBackend CreateManualEffect])
  /\ doWatch (getMosaConfigForSolid solidWithoutCreateEffect) markEffect
       undefined emptyEngine
     = (Throw (TypeError "mosaConfig.createAutoEffect is not a function"),
        emptyEngine, []).
Proof.
  destruct (manual_registration_failures solidWithoutCreateEffect markEffect
              [ {| ReadonlyProp.value := fn_body readSeven [] |} ] emptyEngine)
    as (_ & Hmanual & Hauto).
  split.
  - eapply Hmanual; reflexivity.
  - apply Hauto. reflexivity.
Defined.

(** X6. The four-key configuration [mosaConfigForSolid] serves the four
    documented functions and no more: over it [useProp], [useFormula]
    and [doWatch] are what they are over [getMosaConfigForSolid] applied
    to the same Solid functions, while [useRoot] and [onDispose] throw
    the TypeError of the missing method, with nothing run. *)
Theorem mosaConfigForSolid_four_methods St (solid : SolidJs.t St) :
  (forall func s,
      useRoot (mosaConfigForSolid solid) func s
      = (Throw (TypeError "mosaConfig.createRoot is not a function"), s, []))
  /\ (forall func s,
        onDispose (mosaConfigForSolid solid) func s
        = (Throw (TypeError "mosaConfig.onDispose is not a function"), s, []))
  /\ (forall initValue s,
        useProp (mosaConfigForSolid solid) initValue s
        = useProp (getMosaConfigForSolid (importsAsConfig solid)) initValue s)
  /\ (forall compute set s,
        useFormula (mosaConfigForSolid solid) compute set s
        = useFormula (getMosaConfigForSolid (importsAsConfig solid)) compute set s)
  /\ (forall func options s,
        doWatch (mosaConfigForSolid solid) func options s
        = doWatch (getMosaConfigForSolid (importsAsConfig solid)) func options s).
Proof.
  repeat split.
Qed.

(** X7. [mosaForSolid] is the facade of [getMosaConfigForSolid] applied
    to the six [solid-js] functions: the configuration written out in
    that plugin file and the one the adapter builds are the same, method
    by method, so the two entry points give the same operations. *)
Theorem mosaForSolid_is_adapter St (solid : SolidJs.t St) :
  (forall s, mosaForSolid solid s
             = initializeMosa (getMosaConfigForSolid (importsAsConfig solid)) s)
  /\ (forall func s,
        useRoot (mosaForSolid_config solid) func s
        = useRoot (getMosaConfigForSolid (importsAsConfig solid)) func s)
  /\ (forall initValue s,
        useProp (mosaForSolid_config solid) initValue s
        = useProp (getMosaConfigForSolid (importsAsConfig solid)) initValue s)
  /\ (forall compute set s,
        useFormula (mosaForSolid_config solid) compute set s
        = useFormula (getMosaConfigForSolid (importsAsConfig solid)) compute set s)
  /\ (forall func options s,
        doWatch (mosaForSolid_config solid) func options s
        = doWatch (getMosaConfigForSolid (importsAsConfig solid)) func options s)
  /\ (forall func s,
        onDispose (mosaForSolid_config solid) func s
        = onDispose (getMosaConfigForSolid (importsAsConfig solid)) func s).
Proof.
  repeat split.
Qed.

(** ** Props and formulas together *)

Section PropsAndFormulas.
Variable St : Type.
Variable cfg : MosaConfig.t St.

Lemma outcome_bind_ret A B (m : M St A) (g : A -> B) s a :
  outcome (m s) = Ok a ->
  outcome ((x <- m ;; ret (g x)) s) = Ok (g a).
Proof.
  unfold bind, ret, outcome.
  destruct (m s) as [[r s1] t1]. cbn. intros ->. reflexivity.
Qed.

End PropsAndFormulas.



(** X9. A formula derived from a prop follows it.  For
    [f = useFormula(() => g(p.value))] on a backend whose computed
    returns what its function evaluates to, [f.value] is [g] of what
    [p.value] reads in the same state; so after [p.value = v2] on a
    backend whose signals keep what they are given, [f.value] is
    [g(v2)]. *)
Theorem formula_follows_prop St (cfg : MosaConfig.t St) mkC id g
    (p : MosaProp.t St) setter sa f sb tb :
  MosaConfig.createComputed cfg = Some mkC ->
  ComputedContract mkC (derive id g p) ->
  useFormula cfg (derive id g p) setter sa = (Ok f, sb, tb) ->
  (forall s w,
      outcome (MosaProp.value p s) = Ok w ->
      outcome (Formula.value f s) = Ok (g w))
  /\ (forall mkS v s0 s1 t1 v2 s2 s3 t2,
        MosaConfig.createSignal cfg = Some mkS ->
        SignalContract mkS ->
        useProp cfg v s0 = (Ok p, s1, t1) ->
        MosaProp.set_value p v2 s2 = (Ok tt, s3, t2) ->
        outcome (Formula.value f s3) = Ok (g v2)).
Proof.
  intros HmkC HCC Hf.
  apply useFormula_inv in Hf as (mk & c & tc & Hmk & Hc & _ & ->).
  rewrite HmkC in Hmk. injection Hmk as <-.
  cbn [Formula.value].
  assert (Hread : forall s w,
             outcome (MosaProp.value p s) = Ok w ->
             outcome (call_accessor ComputedGet (Computed.get c) s) = Ok (g w)).
  { intros s w Hw. rewrite call_accessor_after.
    unfold after, outcome at 1. cbn [fst].
    rewrite (HCC _ _ _ _ Hc s). cbn [derive fn_body].
    apply outcome_bind_ret. exact Hw. }
  split; [exact Hread | ].
  intros mkS v s0 s1 t1 v2 s2 s3 t2 HmkS HC Hp Hw. apply Hread.
  apply useProp_inv in Hp as (mk & sig & t6 & Hmk & Hsig & _ & ->).
  rewrite HmkS in Hmk. injection Hmk as <-.
  cbn [MosaProp.set_value MosaProp.value] in *.
  rewrite call_accessor_after in Hw |- *.
  destruct (Signal.set sig v2 s2) as [[r s6] t7] eqn:Hs.
  unfold after in Hw. cbn in Hw. injection Hw as -> -> _.
  exact (proj2 (HC _ _ _ _ _ Hsig) _ _ _ _ Hs).
Qed.

Lemma formula_follows_prop_witness :
  exists p s1 t1 f s2 t2,
    useProp engineConfig (defined (VNum 0)) emptyEngine = (Ok p, s1, t1)
    /\ useFormula engineConfig (derive 11 succValue p) undefined s1
       = (Ok f, s2, t2)
    /\ outcome (Formula.value f s2) = Ok (defined (VNum 1))
    /\ outcome (Formula.value f
                  (final (MosaProp.set_value p (defined (VNum 4)) s2)))
       = Ok (defined (VNum 5)).
Proof.
  eexists _, _, _, _, _, _.
  split; [reflexivity | split; [reflexivity | split]].
  - eapply (proj1 (@formula_follows_prop Engine engineConfig engineComputed
                     11 succValue _ undefined
                     (writeCell 0 (defined (VNum 0)) emptyEngine) _ _ _
                     eq_refl (@engineComputed_conforms _) eq_refl)
              _ (defined (VNum 0))).
    reflexivity.
  - eapply (proj2 (@formula_follows_prop Engine engineConfig engineComputed
                     11 succValue _ undefined
                     (writeCell 0 (defined (VNum 0)) emptyEngine) _ _ _
                     eq_refl (@engineComputed_conforms _) eq_refl)
              engineSignal (defined (VNum 0)) emptyEngine _ _
              (defined (VNum 4)) (writeCell 0 (defined (VNum 0)) emptyEngine));
      [reflexivity | apply engineSignal_conforms | reflexivity | reflexivity].
Defined.

(** X10. Building a formula calls neither [compute] nor the setter:
    [useFormula] ends in the same state, with the same trace and the
    same error whatever setter it is given, and every function call in
    its trace was made by the backend's [createComputed]. *)
Theorem useFormula_ignores_setter St (cfg : MosaConfig.t St) compute set1 set2 s :
  error_of (useFormula cfg compute set1 s) = error_of (useFormula cfg compute set2 s)
  /\ final (useFormula cfg compute set1 s) = final (useFormula cfg compute set2 s)
  /\ trace (useFormula cfg compute set1 s) = trace (useFormula cfg compute set2 s)
  /\ forall fid,
       invocations fid (trace (useFormula cfg compute set1 s))
       = match MosaConfig.createComputed cfg with
         | Some mk => invocations fid (trace (mk compute s))
         | None => 0
         end.
Proof.
  unfold useFormula.
  destruct (MosaConfig.createComputed cfg) as [mk | ]; [ | repeat split].
  pose proof (call_backend_present CreateComputed mk compute s) as Hc.
  destruct (mk compute s) as [[[c | e] s1] t1]; unfold after in Hc; cbn in Hc.
  - erewrite !bind_ok by exact Hc. cbn. rewrite app_nil_r. repeat split.
  - erewrite !bind_throw by exact Hc. repeat split.
Qed.

(** X11. Watching a prop through the Solid adapter reaches Solid's own
    accessor: for a prop [p] made by [useProp] and
    [doWatch(fn, {on: [p]})], the one thunk handed to Solid's [on] is a
    read of [p.value], which is one call of the accessor Solid's
    [createSignal] returned for [p]. *)
Theorem watched_prop_reads_solid_accessor St (solid : SolidConfig.t St)
    v s0 p s1 t1 onf func s :
  useProp (getMosaConfigForSolid solid) v s0 = (Ok p, s1, t1) ->
  SolidConfig.on solid = Some onf ->
  exists mkS get set tS thunk,
    SolidConfig.createSignal solid = Some mkS
    /\ mkS v s0 = (Ok (get, set), s1, tS)
    /\ (forall s', thunk s' = after (EvAccessor SignalGet) (get s'))
    /\ doWatch (getMosaConfigForSolid solid) func
         (defined {| Options.on := defined [asReadonly p] |}) s =
       match onf ([thunk], func) s with
       | (Ok tracked, s2, t2) =>
           let r := call_solid "createEffect" (SolidConfig.createEffect solid) tracked s2 in
           (outcome r, final r, EvBackend CreateManualEffect :: t2 ++ trace r)
       | (Throw e, s2, t2) => (Throw e, s2, EvBackend CreateManualEffect :: t2)
       end.
Proof.
  intros Hp Hon.
  apply useProp_inv in Hp as (mk & sig & tS & Hmk & Hsig & _ & ->).
  destruct (@adapter_createSignal_inv St solid mk v s0 sig s1 tS Hmk Hsig)
    as (mkS & get & set & HmkS & Hrun & ->).
  exists mkS, get, set, tS,
    (call_accessor SignalGet get).
  repeat split; auto.
  - intros s'. apply call_accessor_after.
  - rewrite (adapter_manual_steps solid func _ s Hon). reflexivity.
Qed.

Lemma watched_prop_reads_solid_accessor_witness :
  exists p s1 t1,
    useProp (getMosaConfigForSolid (importsAsConfig engineSolid))
      (defined (VNum 3)) emptyEngine = (Ok p, s1, t1)
    /\ trace (doWatch (getMosaConfigForSolid (importsAsConfig engineSolid))
                markEffect (defined {| Options.on := defined [asReadonly p] |}) s1)
       = [EvBackend CreateManualEffect; EvInvoke 1002 [];
          EvAccessor SignalGet; EvInvoke 2 []].
Proof.
  eexists _, _, _. split; [reflexivity | ].
  destruct (@watched_prop_reads_solid_accessor Engine (importsAsConfig engineSolid)
              (defined (VNum 3)) emptyEngine _ _ _ (SolidJs.on engineSolid)
              markEffect (writeCell 0 (defined (VNum 3)) emptyEngine)
              eq_refl eq_refl)
    as (mkS & get & set & tS & thunk & HmkS & Hrun & Hthunk & Hwatch).
  cbn in HmkS. injection HmkS as <-. cbn in Hrun. injection Hrun as <- _ _.
  refine (eq_trans (f_equal trace Hwatch) _). clear Hwatch.
  cbn. unfold engineAutoEffect. cbn. f_equal.
  rewrite trace_bind_ret_tt, invoke_after. cbn [fn_body fn_id].
  unfold bind. rewrite Hthunk. reflexivity.
Defined.

(** X12. Failures of Solid pass through the adapter and the facade
    unchanged.  [useProp] and [useFormula] over the adapter throw what
    Solid's [createSignal] and [createMemo] throw, in the state Solid
    left; where Solid's function is missing they throw the TypeError of
    calling it (worded for the destructuring around the call of
    [createSignal]), after the facade entered the adapter's method and
    before anything else ran. *)
Theorem solid_failures_pass_through St (solid : SolidConfig.t St) :
  (forall v s,
      match SolidConfig.createSignal solid with
      | Some mkS =>
          error_of (useProp (getMosaConfigForSolid solid) v s) = error_of (mkS v s)
          /\ final (useProp (getMosaConfigForSolid solid) v s) = final (mkS v s)
          /\ trace (useProp (getMosaConfigForSolid solid) v s)
             = EvBackend CreateSignal :: trace (mkS v s)
      | None =>
          useProp (getMosaConfigForSolid solid) v s
          = (Throw (TypeError
               "solidConfig.createSignal is not a function or its return value is not iterable"),
             s, [EvBackend CreateSignal])
      end)
  /\ (forall compute set s,
        match SolidConfig.createMemo solid with
        | Some mkM =>
            error_of (useFormula (getMosaConfigForSolid solid) compute set s)
            = error_of (mkM compute s)
            /\ final (useFormula (getMosaConfigForSolid solid) compute set s)
               = final (mkM compute s)
            /\ trace (useFormula (getMosaConfigForSolid solid) compute set s)
               = EvBackend CreateComputed :: trace (mkM compute s)
        | None =>
            useFormula (getMosaConfigForSolid solid) compute set s
            = (Throw (TypeError "solidConfig.createMemo is not a function"), s,
               [EvBackend CreateComputed])
        end).
Proof.
  split.
  - intros v s. unfold useProp.
    cbn [getMosaConfigForSolid MosaConfig.createSignal].
    destruct (SolidConfig.createSignal solid) as [mkS | ]; [ | reflexivity].
    match goal with
    | |- context [call_backend CreateSignal (Some ?W) v] =>
        destruct (wrapped_delegates CreateSignal (Some W) v
                    (fun sig => {| MosaProp.value :=
                                     call_accessor SignalGet (Signal.get sig);
                                   MosaProp.set_value := fun newValue =>
                                     call_accessor (SignalSet newValue)
                                       (Signal.set sig newValue) |}) s)
          as (He & Hf & Ht)
    end.
    rewrite He, Hf, Ht. cbn [call_solid_destructured].
    destruct (bind_ret_effects (mkS v)
                (fun gs => {| Signal.get := fst gs; Signal.set := snd gs |}) s)
      as (He' & Hf' & Ht').
    rewrite He', Hf', Ht'. auto.
  - intros compute set s. unfold useFormula.
    cbn [getMosaConfigForSolid MosaConfig.createComputed].
    destruct (SolidConfig.createMemo solid) as [mkM | ]; [ | reflexivity].
    match goal with
    | |- context [call_backend CreateComputed (Some ?W) compute] =>
        destruct (wrapped_delegates CreateComputed (Some W) compute
                    (fun c => {| Formula._isSig := true;
                                 Formula.value :=
                                   call_accessor ComputedGet (Computed.get c);
                                 Formula.set_value := fun newValue =>
                                   opt_call set [newValue] ;; ret tt |}) s)
          as (He & Hf & Ht)
    end.
    rewrite He, Hf, Ht. cbn [call_solid].
    destruct (bind_ret_effects (mkM compute)
                (fun memo => {| Computed.get := memo |}) s)
      as (He' & Hf' & Ht').
    rewrite He', Hf', Ht'. auto.
Qed.
